(** * WACC calculator (app.py): a shallow embedding and its properties

    The development follows [app.py] function by function:
    - [_normalize_label], [_extract_total_debt], [_get_first_balance_sheet]
      and [fetch_ticker_metrics] (the metrics fetcher);
    - [calculate_wacc] (the calculator);
    - the module-level submit handler.

    Python numbers are modelled through the interface [PyNumber]: the
    calculator only uses [+], [-], [*], [/], [max] and the truth value of a
    number, so it runs unchanged on Python [float] (IEEE binary64, here
    Rocq's primitive floats) and on exact rationals ([fractions.Fraction],
    here [Q]).  Exceptions are modelled with the error monad [exc]. *)

From Stdlib Require Import Bool List ZArith QArith Qfield Lqa Floats Ascii String
  Lia.
Import ListNotations.

Set Warnings "-inexact-float".

(** ** Exceptions *)

Inductive exception : Type :=
| ZeroDivisionError
| TypeError
| KeyError
| IndexError.

Inductive exc (A : Type) : Type :=
| Ok (a : A)
| Raise (e : exception).
Arguments Ok {A} a.
Arguments Raise {A} e.

Definition bind {A B : Type} (m : exc A) (k : A -> exc B) : exc B :=
  match m with
  | Ok a => k a
  | Raise e => Raise e
  end.

Declare Scope exc_scope.
Delimit Scope exc_scope with exc.
Notation "x <- m ;; k" := (bind m (fun x => k))
  (at level 61, m at next level, right associativity) : exc_scope.
Open Scope exc_scope.

(** ** Python numbers *)

Class PyNumber (N : Type) : Type := {
  zero : N;
  one : N;
  add : N -> N -> N;
  sub : N -> N -> N;
  mul : N -> N -> N;
  (** the quotient, meaningful when the divisor is not zero *)
  div : N -> N -> N;
  (** [ltb a b] is Python's [a < b], equivalently [b > a] *)
  ltb : N -> N -> bool;
  (** [is_zero x] is Python's [x == 0] *)
  is_zero : N -> bool;
  ltb_zero_zero : ltb zero zero = false
}.

Declare Scope py_scope.
Delimit Scope py_scope with py.
Infix "+" := add : py_scope.
Infix "-" := sub : py_scope.
Infix "*" := mul : py_scope.

Section PyOps.
Context {N : Type} `{PyNumber N}.

(** The truth value of a number: [bool(x)] is [x != 0]. *)
Definition truthy (x : N) : bool := negb (is_zero x).

(** [a / b]: true division raises [ZeroDivisionError] on a zero divisor. *)
Definition truediv (a b : N) : exc N :=
  if is_zero b then Raise ZeroDivisionError else Ok (div a b).

(** The builtin [max(a, b)]: the first argument is kept unless the second
    is strictly greater. *)
Definition py_max (a b : N) : N :=
  if ltb a b then b else a.
End PyOps.

(** Python [float]: IEEE binary64.  [x == 0] holds for both signed zeros and
    fails for NaN, so NaN is truthy. The integer literals [0] and [1] of the
    source are converted to [0.0] and [1.0] by the mixed operations they
    enter. *)
#[export] Instance float_PyNumber : PyNumber float := {|
  zero := 0%float;
  one := 1%float;
  add := PrimFloat.add;
  sub := PrimFloat.sub;
  mul := PrimFloat.mul;
  div := PrimFloat.div;
  ltb := PrimFloat.ltb;
  is_zero := fun x => PrimFloat.eqb x 0%float;
  ltb_zero_zero := eq_refl
|}.

(** Exact rationals ([fractions.Fraction]). *)
#[export] Instance Q_PyNumber : PyNumber Q := {|
  zero := 0%Q;
  one := 1%Q;
  add := Qplus;
  sub := Qminus;
  mul := Qmult;
  div := Qdiv;
  ltb := fun a b => negb (Qle_bool b a);
  is_zero := fun x => Qeq_bool x 0%Q;
  ltb_zero_zero := eq_refl
|}.

(** ** The WACC calculator *)

Record WaccResult (N : Type) : Type := {
  equity_weight : N;
  debt_weight : N;
  cost_of_equity : N;
  after_tax_cost_of_debt : N;
  wacc : N
}.
Arguments equity_weight {N} _.
Arguments debt_weight {N} _.
Arguments cost_of_equity {N} _.
Arguments after_tax_cost_of_debt {N} _.
Arguments wacc {N} _.

Section Calculator.
Context {N : Type} `{PyNumber N}.
Local Open Scope py_scope.

Definition calculate_wacc
    (market_cap total_debt risk_free_rate market_risk_premium
     cost_of_debt tax_rate beta : N) : exc (WaccResult N) :=
  let equity_value := market_cap in
  let debt_value := py_max total_debt zero in
  let total_capital := equity_value + debt_value in
  equity_weight <-
    (if truthy total_capital then truediv equity_value total_capital
     else Ok zero) ;;
  debt_weight <-
    (if truthy total_capital then truediv debt_value total_capital
     else Ok zero) ;;
  let cost_of_equity := risk_free_rate + beta * market_risk_premium in
  let after_tax_cost_of_debt := cost_of_debt * (one - tax_rate) in
  let wacc :=
    equity_weight * cost_of_equity + debt_weight * after_tax_cost_of_debt in
  Ok {| equity_weight := equity_weight;
        debt_weight := debt_weight;
        cost_of_equity := cost_of_equity;
        after_tax_cost_of_debt := after_tax_cost_of_debt;
        wacc := wacc |}.
End Calculator.

(** ** Balance-sheet labels

    A [str] is modelled by [string]; its characters are the code points
    0..255.  On that range [str.isspace] holds for the code points below and
    [str.lower] moves [A-Z] and the accented capitals of Latin-1 by 32. *)

Definition isspace (c : ascii) : bool :=
  let n := nat_of_ascii c in
  ((9 <=? n) && (n <=? 13)) || ((28 <=? n) && (n <=? 32))
  || (n =? 133) || (n =? 160).

Definition char_lower (c : ascii) : ascii :=
  let n := nat_of_ascii c in
  if ((65 <=? n) && (n <=? 90))
     || ((192 <=? n) && (n <=? 222) && negb (n =? 215))
  then ascii_of_nat (n + 32) else c.

Fixpoint lstrip (s : string) : string :=
  match s with
  | EmptyString => EmptyString
  | String c s' => if isspace c then lstrip s' else s
  end.

Fixpoint rstrip (s : string) : string :=
  match s with
  | EmptyString => EmptyString
  | String c s' =>
      match rstrip s' with
      | EmptyString => if isspace c then EmptyString else String c EmptyString
      | r => String c r
      end
  end.

(** [s.strip()] *)
Definition strip (s : string) : string := rstrip (lstrip s).

(** [s.lower()] *)
Fixpoint lower (s : string) : string :=
  match s with
  | EmptyString => EmptyString
  | String c s' => String (char_lower c) (lower s')
  end.

(** [s.replace(old, "")] for a one-character [old]. *)
Fixpoint remove_char (old : ascii) (s : string) : string :=
  match s with
  | EmptyString => EmptyString
  | String c s' =>
      if Ascii.eqb c old then remove_char old s'
      else String c (remove_char old s')
  end.

Definition _normalize_label (label : string) : string :=
  remove_char "_" (remove_char " " (lower (strip label))).

(** The set literal [debt_labels]; only membership is ever asked of it. *)
Definition debt_labels : list string :=
  [ "totaldebt"; "longtermdebt"; "shortlongtermdebttotal";
    "longtermdebttotal"; "shorttermdebttotal" ]%string.

Definition set_mem (x : string) (s : list string) : bool :=
  existsb (String.eqb x) s.

(** [_normalize_label(str(raw_label)) in debt_labels] *)
Definition is_debt_label (raw_label : string) : bool :=
  set_mem (_normalize_label raw_label) debt_labels.

(** ** Data frames

    A pandas [DataFrame] with its row labels ([index]), its column labels
    ([columns]) and its cells, row by row; a cell that is not stored reads as
    NaN.  Labels need not be unique. *)

Record DataFrame : Type := {
  index : list string;
  columns : list string;
  values : list (list float)
}.

(** [frame.empty]: one of the axes has length 0. *)
Definition df_empty (frame : DataFrame) : bool :=
  (List.length (index frame) =? 0)%nat
  || (List.length (columns frame) =? 0)%nat.

Definition cell (frame : DataFrame) (i j : nat) : float :=
  nth j (nth i (values frame) []) nan.

Fixpoint positions_from (k : string) (l : list string) (i : nat) : list nat :=
  match l with
  | [] => []
  | x :: l' =>
      if String.eqb x k then i :: positions_from k l' (S i)
      else positions_from k l' (S i)
  end.

Definition positions (k : string) (l : list string) : list nat :=
  positions_from k l 0.

(** What [frame.loc[row, column]] evaluates to: a number when both labels
    occur once, a [Series] or a [DataFrame] when one of them is repeated. *)
Inductive pyvalue : Type :=
| Scalar (v : float)
| NonScalar.

Definition loc (frame : DataFrame) (row column : string) : exc pyvalue :=
  match positions row (index frame), positions column (columns frame) with
  | [], _ | _, [] => Raise KeyError
  | [i], [j] => Ok (Scalar (cell frame i j))
  | _, _ => Ok NonScalar
  end.

(** [math.isnan(value)]: a table of several cells does not convert to a
    float. *)
Definition math_isnan (value : pyvalue) : exc bool :=
  match value with
  | Scalar v => Ok (is_nan v)
  | NonScalar => Raise TypeError
  end.

(** [float(value)] *)
Definition py_float (value : pyvalue) : exc float :=
  match value with
  | Scalar v => Ok v
  | NonScalar => Raise TypeError
  end.

(** [columns[0]] *)
Definition first_label (l : list string) : exc string :=
  match l with
  | [] => Raise IndexError
  | c :: _ => Ok c
  end.

(** The body of the [for raw_label in balance_sheet.index] loop, over the
    labels that remain to be visited. *)
Fixpoint extract_loop (balance_sheet : DataFrame) (labels : list string)
  : exc (option float) :=
  match labels with
  | [] => Ok None
  | raw_label :: rest =>
      if is_debt_label raw_label then
        first_column <- first_label (columns balance_sheet) ;;
        value <- loc balance_sheet raw_label first_column ;;
        isnan <- math_isnan value ;;
        if negb isnan then (v <- py_float value ;; Ok (Some v)) else Ok None
      else extract_loop balance_sheet rest
  end.

Definition _extract_total_debt (balance_sheet : option DataFrame)
  : exc (option float) :=
  match balance_sheet with
  | None => Ok None
  | Some frame =>
      if df_empty frame then Ok None
      else extract_loop frame (index frame)
  end.

(** ** The metrics fetcher

    What the data source answers for one ticker: the quote snapshot
    ([fast_info]), the closes of [history(period="5d")], the company info
    ([get_info()]) and the two balance sheets.  A mapping is a list of
    key/value pairs read with [get]; a key bound to [None] and a missing key
    read the same. *)

Definition dict : Type := list (string * float).

Fixpoint get (d : dict) (key : string) : option float :=
  match d with
  | [] => None
  | (k, v) :: d' => if String.eqb k key then Some v else get d' key
  end.

Record Ticker : Type := {
  fast_info : option dict;
  history_close : list float;
  get_info : option dict;
  balance_sheet : option DataFrame;
  quarterly_balance_sheet : option DataFrame
}.

(** [mapping or {}] *)
Definition or_empty (mapping : option dict) : dict :=
  match mapping with
  | Some d => d
  | None => []
  end.

(** The truth value of an optional number: [None] and zero are false. *)
Definition truthy_opt (a : option float) : bool :=
  match a with
  | Some x => truthy x
  | None => false
  end.

(** [a or b] on optional numbers. *)
Definition py_or (a b : option float) : option float :=
  if truthy_opt a then a else b.

(** [a or default] with a number for [default]. *)
Definition or_default (a : option float) (default : float) : float :=
  match a with
  | Some x => if truthy x then x else default
  | None => default
  end.

Definition _get_first_balance_sheet (ticker : Ticker) : option DataFrame :=
  let usable (frame : option DataFrame) : bool :=
    match frame with
    | Some f => negb (df_empty f)
    | None => false
    end in
  if usable (balance_sheet ticker) then balance_sheet ticker
  else if usable (quarterly_balance_sheet ticker)
       then quarterly_balance_sheet ticker
       else None.

(** The record [fetch_ticker_metrics] returns (a dict with these five
    keys). *)
Record TickerMetrics : Type := {
  price : option float;
  shares_outstanding : option float;
  market_cap : option float;
  beta : option float;
  total_debt : option float
}.

(** [yf_Ticker] stands for the data source, [yf.Ticker]; the five-minute
    cache in front of the function returns what the function returns. *)
Definition fetch_ticker_metrics (yf_Ticker : string -> Ticker)
    (ticker_symbol : string) : exc TickerMetrics :=
  let ticker := yf_Ticker ticker_symbol in
  let fast_info := or_empty (fast_info ticker) in
  let price := py_or (get fast_info "last_price")
                     (get fast_info "previous_close") in
  let price :=
    match price with
    | None =>
        let recent := history_close ticker in
        match recent with
        | [] => price
        | _ :: _ => Some (last recent nan)
        end
    | Some _ => price
    end in
  let shares_outstanding := get fast_info "shares_outstanding" in
  let market_cap := get fast_info "market_cap" in
  let market_cap :=
    match market_cap, price with
    | None, Some p =>
        if truthy_opt shares_outstanding
        then option_map (fun s => p * s)%float shares_outstanding
        else market_cap
    | _, _ => market_cap
    end in
  let info := or_empty (get_info ticker) in
  let beta := py_or (get info "beta") (get fast_info "beta") in
  let balance_sheet := _get_first_balance_sheet ticker in
  total_debt <- _extract_total_debt balance_sheet ;;
  Ok {| price := price;
        shares_outstanding := shares_outstanding;
        market_cap := market_cap;
        beta := beta;
        total_debt := total_debt |}.

(** ** The submit handler

    [ticker_symbol] is the text of the form after [.strip().upper()]; the
    rates are the percentages typed in the form. *)

Record Form : Type := {
  ticker_symbol : string;
  risk_free_rate_pct : float;
  market_risk_premium_pct : float;
  cost_of_debt_pct : float;
  tax_rate_pct : float;
  manual_market_cap : float;
  submitted : bool
}.

(** What the page shows after the script has run. *)
Inductive Page : Type :=
| NotSubmitted
| ErrorNoTicker
| ErrorNoMarketCap
| Success (market_cap total_debt beta : float)
          (wacc_inputs : WaccResult float) (metrics : TickerMetrics).

Definition handler (yf_Ticker : string -> Ticker) (form : Form) : exc Page :=
  if negb (submitted form) then Ok NotSubmitted
  else if String.eqb (ticker_symbol form) "" then Ok ErrorNoTicker
  else
    metrics <- fetch_ticker_metrics yf_Ticker (ticker_symbol form) ;;
    let market_cap :=
      if truthy (manual_market_cap form) then Some (manual_market_cap form)
      else market_cap metrics in
    match market_cap with
    | None => Ok ErrorNoMarketCap
    | Some market_cap =>
        if (market_cap <=? 0)%float then Ok ErrorNoMarketCap
        else
          let beta := or_default (beta metrics) 1%float in
          let total_debt := or_default (total_debt metrics) 0%float in
          wacc_inputs <-
            calculate_wacc market_cap total_debt
              (risk_free_rate_pct form / 100)%float
              (market_risk_premium_pct form / 100)%float
              (cost_of_debt_pct form / 100)%float
              (tax_rate_pct form / 100)%float
              beta ;;
          Ok (Success market_cap total_debt beta wacc_inputs metrics)
    end.

(** ** Vocabulary of the specification *)









(** The normalisation without its [strip]. *)
Definition unspaced (s : string) : string := remove_char " " (lower s).

(** No whitespace but the space itself. *)
Fixpoint only_spaces (s : string) : Prop :=
  match s with
  | EmptyString => True
  | String c s' => (isspace c = true -> c = " "%char) /\ only_spaces s'
  end.

(** A row label that is no debt label. *)
Definition unmatched (raw_label : string) : Prop :=
  is_debt_label raw_label = false.

(** A property of every character of a string. *)
Fixpoint string_Forall (P : ascii -> Prop) (s : string) : Prop :=
  match s with
  | EmptyString => True
  | String c s' => P c /\ string_Forall P s'
  end.

(** A character that [_normalize_label] lets through: no space, no
    underscore, and nothing [lower] would change. *)
Definition normal_char (c : ascii) : Prop :=
  Ascii.eqb c " " = false /\ Ascii.eqb c "_" = false /\ char_lower c = c.

(** A balance sheet [_get_first_balance_sheet] passes over: [None] or an
    empty frame. *)
Definition unusable (frame : option DataFrame) : Prop :=
  match frame with
  | Some f => df_empty f = true
  | None => True
  end.

(** ** Sample data used in the examples *)


Definition sheet_long_term_first : DataFrame :=
  {| index := ["Long Term Debt"; "Total Debt"]%string;
     columns := ["2023-12-31"; "2022-12-31"]%string;
     values := [[5; 6]; [10; 11]]%float |}.

Definition sheet_long_term_nan : DataFrame :=
  {| index := ["Cash"; "Long Term Debt"; "Total Debt"]%string;
     columns := ["2023-12-31"; "2022-12-31"]%string;
     values := [[1; 2]; [nan; 6]; [10; 11]]%float |}.

Definition sheet_repeated_label : DataFrame :=
  {| index := ["Total Debt"; "Total Debt"]%string;
     columns := ["2023-12-31"]%string;
     values := [[5]; [7]]%float |}.

Definition repeated_label_source (ticker_symbol : string) : Ticker :=
  {| fast_info := None;
     history_close := [];
     get_info := None;
     balance_sheet := Some sheet_repeated_label;
     quarterly_balance_sheet := None |}.

Definition no_sheets (snapshot : dict) : Ticker :=
  {| fast_info := Some snapshot;
     history_close := [];
     get_info := None;
     balance_sheet := None;
     quarterly_balance_sheet := None |}.

Definition sample_form (override : float) : Form :=
  {| ticker_symbol := "AAPL";
     risk_free_rate_pct := 4;
     market_risk_premium_pct := 5;
     cost_of_debt_pct := 4;
     tax_rate_pct := 25;
     manual_market_cap := override;
     submitted := true |}.

(** The record scenario 2 of the specification lists. *)
Definition scenario_2_listed : WaccResult float :=
  {| equity_weight := 0.8;
     debt_weight := 0.2;
     cost_of_equity := 0.102;
     after_tax_cost_of_debt := 0.0395;
     wacc := 0.0895 |}%float.

(** What [calculate_wacc] returns on scenario 2 in binary64. *)
Definition scenario_2_returned : WaccResult float :=
  {| equity_weight := 0.8;
     debt_weight := 0.2;
     cost_of_equity := 0.102;
     after_tax_cost_of_debt := 0.03950000000000001;
     wacc := 0.08950000000000001 |}%float.

(** * Properties *)

(** ** The calculator *)

Section CalculatorFacts.
Context {N : Type} `{PyNumber N}.
Local Open Scope py_scope.

(** The calculator never raises: the guard on [total_capital] is the test
    [truediv] makes on its divisor. *)
Lemma calculate_wacc_returns
    (market_cap total_debt risk_free_rate market_risk_premium
     cost_of_debt tax_rate beta : N) :
  let debt_value := py_max total_debt zero in
  let total_capital := market_cap + debt_value in
  let ew := if is_zero total_capital then zero
            else div market_cap total_capital in
  let dw := if is_zero total_capital then zero
            else div debt_value total_capital in
  let coe := risk_free_rate + beta * market_risk_premium in
  let atc := cost_of_debt * (one - tax_rate) in
  calculate_wacc market_cap total_debt risk_free_rate market_risk_premium
                 cost_of_debt tax_rate beta
  = Ok {| equity_weight := ew;
          debt_weight := dw;
          cost_of_equity := coe;
          after_tax_cost_of_debt := atc;
          wacc := ew * coe + dw * atc |}.
Proof.
  cbv zeta. unfold calculate_wacc, truthy, truediv.
  destruct (is_zero (market_cap + py_max total_debt zero)); reflexivity.
Qed.

Lemma py_max_negative (total_debt : N) :
  ltb total_debt zero = true -> py_max total_debt zero = zero.
Proof. unfold py_max. intros ->. reflexivity. Qed.

Lemma py_max_zero_zero : py_max zero zero = zero.
Proof. unfold py_max. destruct (ltb zero zero); reflexivity. Qed.

Lemma py_max_idempotent (total_debt : N) :
  py_max (py_max total_debt zero) zero = py_max total_debt zero.
Proof.
  unfold py_max at 2 3. destruct (ltb total_debt zero) eqn:E.
  - apply py_max_zero_zero.
  - unfold py_max. rewrite E. reflexivity.
Qed.

Lemma py_max_not_negative (total_debt : N) :
  ltb (py_max total_debt zero) zero = false.
Proof.
  unfold py_max. destruct (ltb total_debt zero) eqn:E.
  - apply ltb_zero_zero.
  - exact E.
Qed.
End CalculatorFacts.

(** Facts of rational arithmetic used below. *)
Lemma Q_is_zero_false (x : Q) : ~ x == 0 -> Qeq_bool x 0 = false.
Proof.
  intros Hx. destruct (Qeq_bool x 0) eqn:E; [|reflexivity].
  apply Qeq_bool_eq in E. contradiction.
Qed.

Lemma Q_weights_sum (e d : Q) : ~ e + d == 0 -> e / (e + d) + d / (e + d) == 1.
Proof. intros Hne. field. exact Hne. Qed.

(** C1, as the code has it. On exact numbers the two weights add up to 1
    whenever total capital is positive. On every number type, binary64
    included, the call returns without a division error, and both weights
    are 0 when total capital equals 0. *)
Theorem calculate_wacc_weights :
  (forall (N : Type) (HN : PyNumber N)
          (market_cap total_debt rf mrp cod tax b : N),
      exists r,
        calculate_wacc market_cap total_debt rf mrp cod tax b = Ok r /\
        (is_zero (add market_cap (py_max total_debt zero)) = true ->
         equity_weight r = zero /\ debt_weight r = zero)) /\
  (forall market_cap total_debt rf mrp cod tax b : Q,
      0 < market_cap + py_max total_debt 0 ->
      exists r,
        calculate_wacc market_cap total_debt rf mrp cod tax b = Ok r /\
        equity_weight r + debt_weight r == 1).
Proof.
  split.
  - intros N HN market_cap total_debt rf mrp cod tax b.
    eexists. split; [apply calculate_wacc_returns|].
    cbn [equity_weight debt_weight]. intros ->. split; reflexivity.
  - intros market_cap total_debt rf mrp cod tax b Hpos.
    assert (Hne : ~ market_cap + py_max total_debt 0 == 0).
    { intros E. rewrite E in Hpos. discriminate Hpos. }
    eexists. split; [apply calculate_wacc_returns|].
    cbn [equity_weight debt_weight is_zero add div zero Q_PyNumber].
    rewrite (Q_is_zero_false _ Hne).
    apply Q_weights_sum. exact Hne.
Qed.

Lemma calculate_wacc_weights_witness :
  exists r,
    calculate_wacc (3 # 1) (1 # 1) (4 # 100) (5 # 100) (4 # 100) (1 # 4) 1
    = Ok r /\ equity_weight r + debt_weight r == 1.
Proof.
  apply (proj2 calculate_wacc_weights). reflexivity.
Defined.

(** In binary64 the two weights of a positive total capital can add up to
    0.9999999999999999: market cap 1000000.1 with debt 100000. *)
Lemma float_weights_not_one :
  exists r,
    calculate_wacc 1000000.1%float 100000%float 0.04%float 0.05%float
                   0.04%float 0.25%float 1%float = Ok r /\
    (0 <? 1000000.1 + py_max 100000 0)%float = true /\
    (equity_weight r + debt_weight r =? 1)%float = false /\
    (equity_weight r + debt_weight r =? 0.9999999999999999)%float = true.
Proof.
  eexists. split; [reflexivity|]. repeat split; vm_compute; reflexivity.
Qed.

(** Scenario 2 in binary64 does not return the listed record: the last two
    fields come out one unit in the last place higher. *)
Lemma scenario_2_not_exact :
  calculate_wacc 800000%float 200000%float 0.03%float 0.06%float
                 0.05%float 0.21%float 1.2%float
  <> Ok scenario_2_listed.
Proof.
  intros E.
  apply (f_equal (fun x => match x with
                           | Ok r => (wacc r =? 0.0895)%float
                           | Raise _ => true
                           end)) in E.
  vm_compute in E. discriminate E.
Qed.

(** C2, as the code has it. In binary64 scenario 2 returns the listed
    equityWeight, debtWeight and costOfEquity, while afterTaxCostOfDebt and
    wacc are the floats next above 0.0395 and 0.0895; on exact numbers all
    five values are the listed ones. *)
Theorem scenario_2 :
  calculate_wacc 800000%float 200000%float 0.03%float 0.06%float
                 0.05%float 0.21%float 1.2%float
  = Ok scenario_2_returned /\
  after_tax_cost_of_debt scenario_2_returned = next_up 0.0395%float /\
  wacc scenario_2_returned = next_up 0.0895%float /\
  exists r : WaccResult Q,
    calculate_wacc 800000 200000 0.03 0.06 0.05 0.21 1.2 = Ok r /\
    equity_weight r == 0.8 /\ debt_weight r == 0.2 /\
    cost_of_equity r == 0.102 /\ after_tax_cost_of_debt r == 0.0395 /\
    wacc r == 0.0895.
Proof.
  split; [vm_compute; reflexivity|].
  split; [vm_compute; reflexivity|].
  split; [vm_compute; reflexivity|].
  eexists. split; [apply calculate_wacc_returns|].
  repeat split; vm_compute; reflexivity.
Qed.

(** C7. On every number type [debt_value] is [max(total_debt, 0)]: the
    debt itself when it is not negative, zero when it is negative, and never
    a negative number. Both weights and the WACC are computed from that
    clamped value, so a negative [total_debt] gives the result that a debt
    of zero gives. *)
Theorem negative_debt_is_clamped :
  forall (N : Type) (HN : PyNumber N)
         (market_cap total_debt rf mrp cod tax b : N),
    (ltb total_debt zero = false -> py_max total_debt zero = total_debt) /\
    (exists r,
        calculate_wacc market_cap total_debt rf mrp cod tax b = Ok r /\
        equity_weight r
        = (if is_zero (add market_cap (py_max total_debt zero)) then zero
           else div market_cap (add market_cap (py_max total_debt zero))) /\
        debt_weight r
        = (if is_zero (add market_cap (py_max total_debt zero)) then zero
           else div (py_max total_debt zero)
                    (add market_cap (py_max total_debt zero))) /\
        cost_of_equity r = add rf (mul b mrp) /\
        after_tax_cost_of_debt r = mul cod (sub one tax) /\
        wacc r = add (mul (equity_weight r) (cost_of_equity r))
                     (mul (debt_weight r) (after_tax_cost_of_debt r))) /\
    calculate_wacc market_cap total_debt rf mrp cod tax b
    = calculate_wacc market_cap (py_max total_debt zero) rf mrp cod tax b /\
    ltb (py_max total_debt zero) zero = false /\
    (ltb total_debt zero = true ->
     py_max total_debt zero = zero /\
     calculate_wacc market_cap total_debt rf mrp cod tax b
     = calculate_wacc market_cap zero rf mrp cod tax b).
Proof.
  intros N HN market_cap total_debt rf mrp cod tax b.
  split; [|split; [|split; [|split]]].
  - intros Hpos. unfold py_max. rewrite Hpos. reflexivity.
  - eexists. split; [apply calculate_wacc_returns|].
    cbn [equity_weight debt_weight cost_of_equity after_tax_cost_of_debt
         wacc].
    repeat split.
  - rewrite !calculate_wacc_returns. rewrite py_max_idempotent. reflexivity.
  - apply py_max_not_negative.
  - intros Hneg. split; [apply py_max_negative; exact Hneg|].
    rewrite !calculate_wacc_returns.
    rewrite (py_max_negative _ Hneg), py_max_zero_zero. reflexivity.
Qed.

Lemma negative_debt_is_clamped_witness :
  py_max 200000%float 0%float = 200000%float /\
  py_max (-5)%float 0%float = 0%float /\
  calculate_wacc 1000%float (-5)%float 0.04%float 0.05%float 0.04%float
                 0.25%float 1%float
  = calculate_wacc 1000%float 0%float 0.04%float 0.05%float 0.04%float
                   0.25%float 1%float.
Proof.
  split.
  - apply (proj1 (negative_debt_is_clamped float float_PyNumber
                    1000 200000 0.04 0.05 0.04 0.25 1)%float).
    reflexivity.
  - apply (negative_debt_is_clamped float float_PyNumber
             1000 (-5) 0.04 0.05 0.04 0.25 1)%float.
    reflexivity.
Defined.

(** In binary64, with a risk-free rate of 0.04 and a premium of 0.05, taking
    beta from 1 to 2 moves costOfEquity by 0.05000000000000002 and not by
    0.05 * (2 - 1). *)
Lemma float_cost_of_equity_not_linear :
  exists r1 r2,
    calculate_wacc 1000%float 0%float 0.04%float 0.05%float 0.04%float
                   0.25%float 2%float = Ok r1 /\
    calculate_wacc 1000%float 0%float 0.04%float 0.05%float 0.04%float
                   0.25%float 1%float = Ok r2 /\
    (cost_of_equity r1 - cost_of_equity r2 =? 0.05 * (2 - 1))%float = false.
Proof.
  do 2 eexists. split; [reflexivity|]. split; [reflexivity|].
  vm_compute. reflexivity.
Qed.

(** C9, as the code has it. On every number type costOfEquity is
    [risk_free_rate + beta * market_risk_premium]; on exact numbers the
    costs of equity of two betas differ by the premium times the difference
    of the betas. *)
Theorem cost_of_equity_linear :
  (forall (N : Type) (HN : PyNumber N)
          (market_cap total_debt rf mrp cod tax b : N),
      exists r,
        calculate_wacc market_cap total_debt rf mrp cod tax b = Ok r /\
        cost_of_equity r = add rf (mul b mrp)) /\
  (forall market_cap total_debt rf mrp cod tax b1 b2 : Q,
      exists r1 r2,
        calculate_wacc market_cap total_debt rf mrp cod tax b1 = Ok r1 /\
        calculate_wacc market_cap total_debt rf mrp cod tax b2 = Ok r2 /\
        cost_of_equity r1 - cost_of_equity r2 == mrp * (b1 - b2)).
Proof.
  split.
  - intros. eexists. split; [apply calculate_wacc_returns|reflexivity].
  - intros. do 2 eexists.
    split; [apply calculate_wacc_returns|].
    split; [apply calculate_wacc_returns|].
    cbn [cost_of_equity add mul Q_PyNumber]. ring.
Qed.

(** ** Labels *)

Section Labels.
Local Open Scope string_scope.


Lemma char_lower_space (c : ascii) :
  Ascii.eqb (char_lower c) " " = Ascii.eqb c " ".
Proof. destruct c as [[] [] [] [] [] [] [] []]; reflexivity. Qed.

Lemma unspaced_cons (c : ascii) (s : string) :
  unspaced (String c s)
  = if Ascii.eqb c " " then unspaced s
    else String (char_lower c) (unspaced s).
Proof. unfold unspaced. cbn. rewrite char_lower_space. reflexivity. Qed.

Lemma only_spaces_lstrip (s : string) :
  only_spaces s -> only_spaces (lstrip s).
Proof.
  induction s as [|c s IH]; cbn; [trivial|].
  intros [Hc Hs]. destruct (isspace c) eqn:E; [auto|].
  cbn. rewrite E. auto.
Qed.










End Labels.




(** ** Total-debt extraction *)

Section Extraction.
Variable frame : DataFrame.

(** Rows whose label is no debt label are passed over. *)
Lemma extract_loop_skip (pre rest : list string) :
  Forall unmatched pre ->
  extract_loop frame (pre ++ rest) = extract_loop frame rest.
Proof.
  induction 1 as [|raw_label pre Hraw _ IH]; cbn [app extract_loop].
  - reflexivity.
  - unfold unmatched in Hraw. rewrite Hraw. exact IH.
Qed.


Lemma extract_loop_no_match (labels : list string) :
  Forall unmatched labels -> extract_loop frame labels = Ok None.
Proof.
  intros Hl. rewrite <- (app_nil_r labels).
  rewrite extract_loop_skip by exact Hl. reflexivity.
Qed.


End Extraction.

(** With unique labels, [loc] reads the cell at the positions of its two
    labels. *)
Lemma positions_from_absent (k : string) (l : list string) (i : nat) :
  ~ In k l -> positions_from k l i = [].
Proof.
  revert i. induction l as [|x l IH]; intros i Hk; cbn; [reflexivity|].
  destruct (String.eqb_spec x k) as [->|_].
  - exfalso. apply Hk. left. reflexivity.
  - apply IH. intros Hin. apply Hk. right. exact Hin.
Qed.

Lemma positions_from_unique (k : string) (l : list string) (i n : nat) :
  NoDup l -> nth_error l n = Some k -> positions_from k l i = [(i + n)%nat].
Proof.
  intros Hnd. revert i n.
  induction Hnd as [|x l Hx Hnd IH]; intros i n Hn.
  - destruct n; discriminate Hn.
  - destruct n as [|n]; cbn in Hn |- *.
    + injection Hn as ->. rewrite String.eqb_refl.
      rewrite positions_from_absent by exact Hx.
      rewrite Nat.add_0_r. reflexivity.
    + destruct (String.eqb_spec x k) as [->|_].
      * exfalso. apply Hx. apply nth_error_In with n. exact Hn.
      * rewrite (IH (S i) n Hn). f_equal. lia.
Qed.

Lemma loc_unique (frame : DataFrame) (i j : nat) (row column : string) :
  NoDup (index frame) -> NoDup (columns frame) ->
  nth_error (index frame) i = Some row ->
  nth_error (columns frame) j = Some column ->
  loc frame row column = Ok (Scalar (cell frame i j)).
Proof.
  intros Hi Hc Hrow Hcol. unfold loc, positions.
  rewrite (positions_from_unique row _ 0 i Hi Hrow).
  rewrite (positions_from_unique column _ 0 j Hc Hcol).
  reflexivity.
Qed.








(** ** The fetcher *)

Open Scope string_scope.

(** The fetcher returns whenever the balance-sheet lookup does. *)
Lemma fetch_ticker_metrics_returns
    (yf_Ticker : string -> Ticker) (ticker_symbol : string)
    (debt : option float) :
  _extract_total_debt (_get_first_balance_sheet (yf_Ticker ticker_symbol))
  = Ok debt ->
  exists m,
    fetch_ticker_metrics yf_Ticker ticker_symbol = Ok m /\
    total_debt m = debt /\
    shares_outstanding m
    = get (or_empty (fast_info (yf_Ticker ticker_symbol)))
          "shares_outstanding".
Proof.
  intros E. unfold fetch_ticker_metrics. rewrite E. cbn [bind].
  eexists. split; [reflexivity|]. split; reflexivity.
Qed.

(** How the returned market cap depends on the returned price and shares
    when the snapshot has no market cap. *)
Lemma fetch_market_cap
    (yf_Ticker : string -> Ticker) (ticker_symbol : string)
    (m : TickerMetrics) :
  fetch_ticker_metrics yf_Ticker ticker_symbol = Ok m ->
  get (or_empty (fast_info (yf_Ticker ticker_symbol))) "market_cap" = None ->
  market_cap m
  = match price m, shares_outstanding m with
    | Some p, Some s => if truthy s then Some (p * s)%float else None
    | _, _ => None
    end.
Proof.
  unfold fetch_ticker_metrics. intros E Hcap.
  destruct (_extract_total_debt _) as [debt|e]; [|discriminate E].
  cbn [bind] in E. injection E as <-.
  cbn [market_cap price shares_outstanding]. rewrite Hcap.
  match goal with
  | |- match ?P with _ => _ end = _ => destruct P as [p|]
  end; [|reflexivity].
  destruct (get _ "shares_outstanding") as [s|]; cbn [truthy_opt option_map].
  - destruct (truthy s); reflexivity.
  - reflexivity.
Qed.

(** With a price of 150 and 0 shares outstanding in the snapshot, and no
    market cap there, the fetcher returns no market cap, and not
    150 * 0. *)
Lemma zero_shares_no_market_cap :
  let snapshot := [("last_price", 150%float); ("shares_outstanding", 0%float)] in
  get snapshot "market_cap" = None /\
  exists m,
    fetch_ticker_metrics (fun _ => no_sheets snapshot) "AAPL" = Ok m /\
    price m = Some 150%float /\
    shares_outstanding m = Some 0%float /\
    market_cap m = None /\
    market_cap m <> Some (150 * 0)%float.
Proof.
  split; [reflexivity|]. eexists. split; [reflexivity|].
  cbn. repeat split. discriminate.
Qed.

(** C4, as the code has it. When the snapshot has no market cap and the
    fetcher has a price and a number of shares that is not zero, the market
    cap it returns is their product; with shares equal to 0 it returns no
    market cap. A price of 150.0 with 1000000 shares gives 150000000. *)
Theorem derived_market_cap :
  (forall (yf_Ticker : string -> Ticker) (ticker_symbol : string)
          (m : TickerMetrics) (p s : float),
      fetch_ticker_metrics yf_Ticker ticker_symbol = Ok m ->
      get (or_empty (fast_info (yf_Ticker ticker_symbol))) "market_cap"
      = None ->
      price m = Some p -> shares_outstanding m = Some s ->
      market_cap m = if (s =? 0)%float then None else Some (p * s)%float) /\
  (forall (yf_Ticker : string -> Ticker) (ticker_symbol : string)
          (debt : option float),
      _extract_total_debt (_get_first_balance_sheet (yf_Ticker ticker_symbol))
      = Ok debt ->
      exists m, fetch_ticker_metrics yf_Ticker ticker_symbol = Ok m) /\
  (exists m,
      fetch_ticker_metrics
        (fun _ => no_sheets
                    [("last_price", 150.0%float);
                     ("shares_outstanding", 1000000%float)])
        "AAPL" = Ok m /\
      price m = Some 150.0%float /\
      shares_outstanding m = Some 1000000%float /\
      market_cap m = Some 150000000%float).
Proof.
  split; [|split].
  - intros yf_Ticker ticker_symbol m p s E Hcap Hp Hs.
    rewrite (fetch_market_cap yf_Ticker ticker_symbol m E Hcap), Hp, Hs.
    unfold truthy. cbn [is_zero float_PyNumber].
    destruct (s =? 0)%float; reflexivity.
  - intros yf_Ticker ticker_symbol debt E.
    destruct (fetch_ticker_metrics_returns yf_Ticker ticker_symbol debt E)
      as (m & Hm & _).
    exists m. exact Hm.
  - eexists. split; [reflexivity|]. repeat split.
Qed.

Lemma derived_market_cap_witness :
  let m := {| price := Some 150.0%float;
              shares_outstanding := Some 1000000%float;
              market_cap := Some 150000000%float;
              beta := None;
              total_debt := None |} in
  market_cap m
  = if (1000000 =? 0)%float then None else Some (150.0 * 1000000)%float.
Proof.
  intros m.
  apply (proj1 derived_market_cap
           (fun _ => no_sheets
                       [("last_price", 150.0%float);
                        ("shares_outstanding", 1000000%float)])
           "AAPL"%string m 150.0%float 1000000%float);
    reflexivity.
Defined.

(** ** The submit handler *)

(** What reaches the calculator when the handler gets as far as computing. *)
Lemma handler_success
    (yf_Ticker : string -> Ticker) (form : Form)
    (cap debt b : float) (r : WaccResult float) (m : TickerMetrics) :
  handler yf_Ticker form = Ok (Success cap debt b r m) ->
  fetch_ticker_metrics yf_Ticker (ticker_symbol form) = Ok m /\
  b = or_default (beta m) 1%float /\
  debt = or_default (total_debt m) 0%float /\
  calculate_wacc cap debt
    (risk_free_rate_pct form / 100)%float
    (market_risk_premium_pct form / 100)%float
    (cost_of_debt_pct form / 100)%float
    (tax_rate_pct form / 100)%float b = Ok r.
Proof.
  unfold handler.
  destruct (negb (submitted form)); [discriminate|].
  destruct (String.eqb (ticker_symbol form) ""); [discriminate|].
  destruct (fetch_ticker_metrics yf_Ticker (ticker_symbol form))
    as [m'|e]; [|discriminate].
  cbn [bind].
  destruct (if truthy (manual_market_cap form) then _ else _) as [c|];
    [|discriminate].
  destruct (c <=? 0)%float; [discriminate|].
  destruct (calculate_wacc _ _ _ _ _ _ _) as [r'|e] eqn:Ew; [|discriminate].
  cbn [bind]. intros E. injection E as <- <- <- <- <-.
  repeat split. exact Ew.
Qed.

(** A fetched beta of 0.0 is replaced by 1.0 on its way to the
    calculator: the call is made with beta 1.0, and the cost of equity it
    returns is 0.04 + 1.0 * 0.05 and not 0.04 + 0.0 * 0.05. *)
Lemma zero_beta_replaced :
  let source := fun _ : string =>
    no_sheets [("market_cap", 1000%float); ("beta", 0%float)] in
  exists cap debt b r m,
    handler source (sample_form 0) = Ok (Success cap debt b r m) /\
    beta m = Some 0%float /\
    b = 1%float /\
    b <> 0%float /\
    calculate_wacc cap debt (4 / 100)%float (5 / 100)%float
                   (4 / 100)%float (25 / 100)%float 1%float = Ok r /\
    cost_of_equity r = (4 / 100 + 1 * (5 / 100))%float /\
    (cost_of_equity r =? 4 / 100 + 0 * (5 / 100))%float = false.
Proof.
  intros source. do 5 eexists. split; [reflexivity|].
  cbn [beta]. split; [reflexivity|]. split; [reflexivity|].
  split.
  - intros E. apply (f_equal (fun x => (x =? 0)%float)) in E.
    vm_compute in E. discriminate E.
  - split; [reflexivity|]. split; vm_compute; reflexivity.
Qed.

(** C5, as the code has it. On every submission that reaches the
    computation, [calculate_wacc] is called with the market cap, the total
    debt and the beta that the page reports, and the page shows what that
    call returns. The beta given to the calculator is 1.0 when the fetched
    beta is absent or equal to zero and the fetched beta otherwise; the debt
    given to it is 0.0 when the fetched debt is absent or equal to zero and
    the fetched debt otherwise. *)
Theorem defaults_for_missing_data :
  forall (yf_Ticker : string -> Ticker) (form : Form)
         (cap debt b : float) (r : WaccResult float) (m : TickerMetrics),
    handler yf_Ticker form = Ok (Success cap debt b r m) ->
    fetch_ticker_metrics yf_Ticker (ticker_symbol form) = Ok m /\
    b = match beta m with
        | None => 1%float
        | Some x => if (x =? 0)%float then 1%float else x
        end /\
    debt = match total_debt m with
           | None => 0%float
           | Some x => if (x =? 0)%float then 0%float else x
           end /\
    calculate_wacc cap debt
      (risk_free_rate_pct form / 100)%float
      (market_risk_premium_pct form / 100)%float
      (cost_of_debt_pct form / 100)%float
      (tax_rate_pct form / 100)%float b = Ok r.
Proof.
  intros yf_Ticker form cap debt b r m E.
  destruct (handler_success yf_Ticker form cap debt b r m E)
    as (Hm & Hb & Hd & Hr).
  split; [exact Hm|]. rewrite Hb, Hd in Hr |- *.
  unfold or_default, truthy in Hr |- *.
  cbn [is_zero float_PyNumber] in Hr |- *.
  split; [|split].
  - destruct (beta m) as [x|]; [destruct (x =? 0)%float|]; reflexivity.
  - destruct (total_debt m) as [x|]; [destruct (x =? 0)%float|]; reflexivity.
  - destruct (beta m) as [x|]; [destruct (x =? 0)%float|];
      (destruct (total_debt m) as [y|]; [destruct (y =? 0)%float|]);
      exact Hr.
Qed.

Lemma defaults_for_missing_data_witness :
  let source := fun _ : string =>
    no_sheets [("market_cap", 1000%float); ("beta", 1.5%float)] in
  exists cap debt b r m,
    handler source (sample_form 0) = Ok (Success cap debt b r m) /\
    beta m = Some 1.5%float /\ total_debt m = None /\
    b = 1.5%float /\ debt = 0%float.
Proof.
  intros source. do 5 eexists.
  assert (E : handler source (sample_form 0)
              = Ok (Success _ _ _ _ _)) by reflexivity.
  split; [exact E|].
  destruct (defaults_for_missing_data _ _ _ _ _ _ _ E) as (_ & Hb & Hd & _).
  split; [reflexivity|]. split; [reflexivity|].
  split; [exact Hb|exact Hd].
Defined.

(** * Further properties of the code *)

(** ** Normalised labels *)

Lemma char_lower_facts (c : ascii) :
  char_lower (char_lower c) = char_lower c /\
  isspace (char_lower c) = isspace c.
Proof. destruct c as [[] [] [] [] [] [] [] []]; split; reflexivity. Qed.

Lemma normalized_chars (s : string) :
  string_Forall normal_char (remove_char "_" (unspaced s)).
Proof.
  induction s as [|c s IH]; [exact I|].
  rewrite unspaced_cons. destruct (Ascii.eqb c " ") eqn:Esp; [exact IH|].
  cbn [remove_char].
  destruct (Ascii.eqb (char_lower c) "_") eqn:Eus; [exact IH|].
  split; [|exact IH]. unfold normal_char.
  rewrite char_lower_space, Esp, Eus, (proj1 (char_lower_facts c)).
  repeat split.
Qed.

(** X1. Whatever the label, its normalisation holds no space, no underscore
    and no character that [lower] would still change. *)
Theorem normalize_label_chars (label : string) :
  string_Forall normal_char (_normalize_label label).
Proof.
  unfold _normalize_label. fold (unspaced (strip label)).
  apply normalized_chars.
Qed.

Lemma only_spaces_rstrip (s : string) :
  only_spaces s -> only_spaces (rstrip s).
Proof.
  induction s as [|c s IH]; cbn [rstrip only_spaces]; [trivial|].
  intros [Hc Hs]. specialize (IH Hs).
  destruct (rstrip s) as [|c' r].
  - destruct (isspace c) eqn:E; [exact I|]. cbn. rewrite E. auto.
  - cbn [only_spaces]. split; assumption.
Qed.

Lemma only_spaces_strip (s : string) : only_spaces s -> only_spaces (strip s).
Proof.
  intros Hs. apply only_spaces_rstrip, only_spaces_lstrip. exact Hs.
Qed.

(** After normalisation a label whose only whitespace was the space holds
    no whitespace at all. *)
Lemma normalized_no_whitespace (s : string) :
  only_spaces s ->
  string_Forall (fun c => isspace c = false) (remove_char "_" (unspaced s)).
Proof.
  induction s as [|c s IH]; cbn [only_spaces]; [intros _; exact I|].
  intros [Hc Hs]. specialize (IH Hs).
  rewrite unspaced_cons. destruct (Ascii.eqb c " ") eqn:Esp; [exact IH|].
  cbn [remove_char].
  destruct (Ascii.eqb (char_lower c) "_"); [exact IH|].
  split; [|exact IH]. rewrite (proj2 (char_lower_facts c)).
  destruct (isspace c); [|reflexivity].
  rewrite (Hc eq_refl) in Esp. discriminate Esp.
Qed.

Lemma rstrip_no_whitespace (s : string) :
  string_Forall (fun c => isspace c = false) s -> rstrip s = s.
Proof.
  induction s as [|c s IH]; cbn [rstrip string_Forall]; [reflexivity|].
  intros [Hc Hs]. rewrite (IH Hs), Hc. destruct s; reflexivity.
Qed.

Lemma lstrip_no_whitespace (s : string) :
  string_Forall (fun c => isspace c = false) s -> lstrip s = s.
Proof.
  destruct s as [|c s]; cbn [lstrip string_Forall]; [reflexivity|].
  intros [Hc _]. rewrite Hc. reflexivity.
Qed.

Lemma unspaced_normal (s : string) :
  string_Forall normal_char s -> remove_char "_" (unspaced s) = s.
Proof.
  induction s as [|c s IH]; cbn [string_Forall]; [reflexivity|].
  intros [(Hsp & Hus & Hlow) Hs].
  rewrite unspaced_cons, Hsp, Hlow. cbn [remove_char].
  rewrite Hus, (IH Hs). reflexivity.
Qed.

(** A string of normal characters without whitespace is its own
    normalisation. *)
Lemma normalize_label_fixed (s : string) :
  string_Forall normal_char s ->
  string_Forall (fun c => isspace c = false) s ->
  _normalize_label s = s.
Proof.
  intros Hn Hw. unfold _normalize_label, strip.
  rewrite (lstrip_no_whitespace s Hw), (rstrip_no_whitespace s Hw).
  fold (unspaced s). apply unspaced_normal. exact Hn.
Qed.

(** X2. Normalising twice changes nothing more, for a label whose only
    whitespace is the space. *)
Theorem normalize_label_idempotent (label : string) :
  only_spaces label ->
  _normalize_label (_normalize_label label) = _normalize_label label.
Proof.
  intros Hl. apply normalize_label_fixed.
  - unfold _normalize_label. fold (unspaced (strip label)).
    apply normalized_chars.
  - unfold _normalize_label. fold (unspaced (strip label)).
    apply normalized_no_whitespace, only_spaces_strip. exact Hl.
Qed.

Lemma normalize_label_idempotent_witness :
  _normalize_label (_normalize_label " Long_Term Debt ")
  = _normalize_label " Long_Term Debt ".
Proof.
  apply normalize_label_idempotent.
  cbn. repeat split; intros E; try reflexivity; discriminate E.
Defined.

(** ** Choosing the balance sheet *)

(** X3. [_get_first_balance_sheet] never hands out an empty frame; it hands
    out the annual sheet whenever that one has data, the quarterly sheet
    only when the annual one is missing or empty, and nothing exactly when
    both are missing or empty. *)
Theorem first_balance_sheet_choice (ticker : Ticker) :
  (forall frame,
      _get_first_balance_sheet ticker = Some frame ->
      df_empty frame = false /\
      (balance_sheet ticker = Some frame \/
       (unusable (balance_sheet ticker) /\
        quarterly_balance_sheet ticker = Some frame))) /\
  (forall frame,
      balance_sheet ticker = Some frame -> df_empty frame = false ->
      _get_first_balance_sheet ticker = Some frame) /\
  (_get_first_balance_sheet ticker = None <->
   unusable (balance_sheet ticker) /\
   unusable (quarterly_balance_sheet ticker)).
Proof.
  unfold _get_first_balance_sheet, unusable.
  destruct (balance_sheet ticker) as [a|];
    [destruct (df_empty a) eqn:Ea|];
    (destruct (quarterly_balance_sheet ticker) as [q|];
     [destruct (df_empty q) eqn:Eq|]);
    cbn [negb];
    (split;
     [ intros frame E;
       first [ discriminate E
             | injection E as <-; split;
               [ assumption
               | first [ left; reflexivity
                       | right; split;
                         [first [assumption|exact I|reflexivity]|reflexivity] ] ] ]
     | split;
       [ intros frame E He;
         first [ discriminate E | injection E as <-; congruence ]
       | split;
         [ intros E;
           first [ discriminate E
                 | split; first [assumption|exact I|reflexivity] ]
         | intros [E1 E2]; first [ reflexivity | congruence ] ] ] ]).
Qed.

Lemma first_balance_sheet_choice_witness :
  _get_first_balance_sheet
    {| fast_info := None; history_close := []; get_info := None;
       balance_sheet := Some {| index := []; columns := []; values := [] |};
       quarterly_balance_sheet := Some sheet_long_term_first |}
  = Some sheet_long_term_first.
Proof.
  set (t := {| fast_info := None; history_close := []; get_info := None;
               balance_sheet := Some {| index := []; columns := [];
                                        values := [] |};
               quarterly_balance_sheet := Some sheet_long_term_first |}).
  destruct (proj1 (first_balance_sheet_choice t) sheet_long_term_first
              eq_refl) as [_ [E|[_ E]]].
  - discriminate E.
  - reflexivity.
Defined.

(** ** What the extraction returns and when it fails *)

Lemma extract_loop_some (frame : DataFrame) (labels : list string) (v : float) :
  extract_loop frame labels = Ok (Some v) ->
  exists pre raw_label post c0,
    labels = (pre ++ raw_label :: post)%list /\
    Forall unmatched pre /\
    is_debt_label raw_label = true /\
    first_label (columns frame) = Ok c0 /\
    loc frame raw_label c0 = Ok (Scalar v) /\
    is_nan v = false.
Proof.
  induction labels as [|raw_label rest IH]; cbn [extract_loop];
    [discriminate|].
  destruct (is_debt_label raw_label) eqn:Hraw.
  - destruct (first_label (columns frame)) as [c0|e] eqn:Hc;
      cbn [bind]; [|discriminate].
    destruct (loc frame raw_label c0) as [[v0|]|e] eqn:Hloc;
      cbn [bind math_isnan]; try discriminate.
    destruct (is_nan v0) eqn:Hnan; cbn [negb bind py_float];
      [discriminate|].
    intros E. injection E as <-.
    exists [], raw_label, rest, c0. repeat split; try assumption.
    constructor.
  - intros E. destruct (IH E) as (pre & r & post & c0 & -> & Hpre & H).
    exists (raw_label :: pre), r, post, c0.
    split; [reflexivity|]. split; [constructor; assumption|exact H].
Qed.

(** X4. A total debt that the extraction returns is never NaN, and it is the
    cell, in the first column, of the first row that carries a debt
    label. *)
Theorem extracted_debt_is_a_number (frame : DataFrame) (v : float) :
  _extract_total_debt (Some frame) = Ok (Some v) ->
  is_nan v = false /\
  exists pre raw_label post c0 cs,
    index frame = (pre ++ raw_label :: post)%list /\
    Forall unmatched pre /\
    is_debt_label raw_label = true /\
    columns frame = c0 :: cs /\
    loc frame raw_label c0 = Ok (Scalar v).
Proof.
  unfold _extract_total_debt. destruct (df_empty frame); [discriminate|].
  intros E.
  destruct (extract_loop_some frame _ v E)
    as (pre & r & post & c0 & Hi & Hpre & Hr & Hc & Hloc & Hnan).
  split; [exact Hnan|].
  destruct (columns frame) as [|c cs] eqn:Hcols; [discriminate Hc|].
  injection Hc as ->.
  exists pre, r, post, c0, cs. repeat split; assumption.
Qed.

Lemma extracted_debt_is_a_number_witness :
  is_nan 5%float = false /\
  exists pre raw_label post c0 cs,
    index sheet_long_term_first = (pre ++ raw_label :: post)%list /\
    Forall unmatched pre /\
    is_debt_label raw_label = true /\
    columns sheet_long_term_first = c0 :: cs /\
    loc sheet_long_term_first raw_label c0 = Ok (Scalar 5%float).
Proof.
  apply (extracted_debt_is_a_number sheet_long_term_first 5%float).
  reflexivity.
Defined.

Lemma positions_from_In (k : string) (l : list string) (i : nat) :
  In k l -> positions_from k l i <> [].
Proof.
  revert i. induction l as [|x l IH]; intros i Hk; cbn; [destruct Hk|].
  destruct (String.eqb_spec x k) as [->|Hne]; [discriminate|].
  apply IH. destruct Hk as [E|Hk]; [contradiction|exact Hk].
Qed.

(** A label of the frame is always found. *)
Lemma loc_found (frame : DataFrame) (row column : string) :
  In row (index frame) -> In column (columns frame) ->
  exists value, loc frame row column = Ok value.
Proof.
  intros Hr Hc. unfold loc, positions.
  pose proof (positions_from_In row _ 0 Hr) as Pr.
  pose proof (positions_from_In column _ 0 Hc) as Pc.
  destruct (positions_from row (index frame) 0) as [|i [|i' li]];
    [contradiction| |];
    (destruct (positions_from column (columns frame) 0) as [|j [|j' lj]];
     [contradiction| |]);
    eexists; reflexivity.
Qed.

Lemma extract_loop_raises
    (frame : DataFrame) (labels : list string) (e : exception) :
  incl labels (index frame) -> columns frame <> [] ->
  extract_loop frame labels = Raise e -> e = TypeError.
Proof.
  intros Hincl Hcols.
  induction labels as [|raw_label rest IH]; cbn [extract_loop];
    [discriminate|].
  destruct (is_debt_label raw_label).
  - destruct (columns frame) as [|c0 cs] eqn:Hc; [contradiction|].
    cbn [first_label bind].
    destruct (loc_found frame raw_label c0) as [value Hloc].
    { apply Hincl. left. reflexivity. }
    { rewrite Hc. left. reflexivity. }
    rewrite Hloc. cbn [bind].
    destruct value as [v|]; cbn [math_isnan bind].
    + destruct (is_nan v); cbn [negb bind py_float]; discriminate.
    + intros E. injection E as <-. reflexivity.
  - apply IH. intros x Hx. apply Hincl. right. exact Hx.
Qed.

Lemma extract_loop_unique_labels (frame : DataFrame) (labels : list string) :
  NoDup (index frame) -> NoDup (columns frame) ->
  incl labels (index frame) -> columns frame <> [] ->
  exists result, extract_loop frame labels = Ok result.
Proof.
  intros Hi Hc Hincl Hcols.
  induction labels as [|raw_label rest IH]; cbn [extract_loop].
  - eexists. reflexivity.
  - destruct (is_debt_label raw_label).
    + destruct (columns frame) as [|c0 cs] eqn:Ec; [contradiction|].
      cbn [first_label bind].
      destruct (In_nth_error (index frame) raw_label) as [i Hn].
      { apply Hincl. left. reflexivity. }
      rewrite (loc_unique frame i 0 raw_label c0 Hi);
        [|rewrite Ec; exact Hc|exact Hn|rewrite Ec; reflexivity].
      cbn [bind math_isnan].
      destruct (is_nan (cell frame i 0)); cbn [negb bind py_float];
        eexists; reflexivity.
    + apply IH. intros x Hx. apply Hincl. right. exact Hx.
Qed.

Lemma not_empty_columns (frame : DataFrame) :
  df_empty frame = false -> columns frame <> [].
Proof.
  unfold df_empty. intros E Hc. rewrite Hc in E.
  rewrite orb_true_r in E. discriminate E.
Qed.

Lemma extract_raises_type_error
    (balance_sheet : option DataFrame) (e : exception) :
  _extract_total_debt balance_sheet = Raise e -> e = TypeError.
Proof.
  destruct balance_sheet as [frame|]; cbn; [|discriminate].
  destruct (df_empty frame) eqn:E; [discriminate|].
  apply extract_loop_raises;
    [apply incl_refl|apply not_empty_columns; exact E].
Qed.

Lemma extract_unique_returns (frame : DataFrame) :
  NoDup (index frame) -> NoDup (columns frame) ->
  exists result, _extract_total_debt (Some frame) = Ok result.
Proof.
  intros Hi Hc. cbn.
  destruct (df_empty frame) eqn:E; [eexists; reflexivity|].
  apply extract_loop_unique_labels;
    [exact Hi|exact Hc|apply incl_refl|apply not_empty_columns; exact E].
Qed.

Lemma extract_not_nan (balance_sheet : option DataFrame) (v : float) :
  _extract_total_debt balance_sheet = Ok (Some v) -> is_nan v = false.
Proof.
  destruct balance_sheet as [frame|]; cbn; [|discriminate].
  destruct (df_empty frame); [discriminate|].
  intros E.
  destruct (extract_loop_some frame _ v E)
    as (pre & r & post & c0 & _ & _ & _ & _ & _ & Hnan).
  exact Hnan.
Qed.

(** X5. The extraction never fails on an index or a key: the only exception
    it can raise is the [TypeError] of a repeated label, and on a sheet
    whose row labels and column labels are unique it always returns. *)
Theorem extraction_failures (balance_sheet : option DataFrame) :
  (forall e, _extract_total_debt balance_sheet = Raise e -> e = TypeError) /\
  (forall frame,
      balance_sheet = Some frame ->
      NoDup (index frame) -> NoDup (columns frame) ->
      exists result, _extract_total_debt balance_sheet = Ok result).
Proof.
  split.
  - intros e. apply extract_raises_type_error.
  - intros frame -> Hi Hc. apply extract_unique_returns; assumption.
Qed.

Lemma extraction_failures_witness :
  exists result,
    _extract_total_debt (Some sheet_long_term_nan) = Ok result.
Proof.
  apply (proj2 (extraction_failures (Some sheet_long_term_nan))
           sheet_long_term_nan eq_refl).
  - repeat constructor; cbn; intuition discriminate.
  - repeat constructor; cbn; intuition discriminate.
Defined.

(** ** What the fetcher returns *)

(** The fields of the record, read off the data source. *)
Lemma fetch_fields
    (yf_Ticker : string -> Ticker) (ticker_symbol : string)
    (m : TickerMetrics) :
  fetch_ticker_metrics yf_Ticker ticker_symbol = Ok m ->
  let ticker := yf_Ticker ticker_symbol in
  let snapshot := or_empty (fast_info ticker) in
  price m
  = match py_or (get snapshot "last_price") (get snapshot "previous_close")
    with
    | Some p => Some p
    | None => match history_close ticker with
              | [] => None
              | _ :: _ => Some (last (history_close ticker) nan)
              end
    end /\
  shares_outstanding m = get snapshot "shares_outstanding" /\
  beta m = py_or (get (or_empty (get_info ticker)) "beta")
                 (get snapshot "beta") /\
  _extract_total_debt (_get_first_balance_sheet ticker)
  = Ok (total_debt m).
Proof.
  unfold fetch_ticker_metrics. intros E.
  destruct (_extract_total_debt _) as [debt|e]; [|discriminate E].
  cbn [bind] in E. injection E as <-.
  cbn [price shares_outstanding beta total_debt].
  repeat split.
  destruct (py_or _ _); [reflexivity|].
  destruct (history_close _); reflexivity.
Qed.

(** X6. A market cap found in the snapshot is returned as it is, whatever
    price and shares say; a market cap that the fetcher returns is the
    snapshot's or else the product of the returned price and a number of
    shares that is not zero. *)
Theorem market_cap_origin
    (yf_Ticker : string -> Ticker) (ticker_symbol : string)
    (m : TickerMetrics) :
  fetch_ticker_metrics yf_Ticker ticker_symbol = Ok m ->
  let snapshot := or_empty (fast_info (yf_Ticker ticker_symbol)) in
  (forall c, get snapshot "market_cap" = Some c -> market_cap m = Some c) /\
  (forall c,
      market_cap m = Some c ->
      get snapshot "market_cap" = Some c \/
      exists p s,
        get snapshot "market_cap" = None /\
        price m = Some p /\ shares_outstanding m = Some s /\
        (s =? 0)%float = false /\ c = (p * s)%float).
Proof.
  intros E snapshot.
  destruct (get snapshot "market_cap") as [c0|] eqn:Hcap.
  - assert (Hm : market_cap m = Some c0).
    { unfold fetch_ticker_metrics in E.
      destruct (_extract_total_debt _) as [debt|e]; [|discriminate E].
      cbn [bind] in E. injection E as <-. cbn [market_cap].
      fold snapshot. rewrite Hcap. reflexivity. }
    split.
    + intros c Hc. injection Hc as <-. exact Hm.
    + intros c Hc. left. rewrite <- Hc, Hm. reflexivity.
  - split; [discriminate|].
    intros c Hc. right.
    rewrite (fetch_market_cap yf_Ticker ticker_symbol m E Hcap) in Hc.
    destruct (price m) as [p|]; [|discriminate Hc].
    destruct (shares_outstanding m) as [s|]; [|discriminate Hc].
    unfold truthy in Hc. cbn [is_zero float_PyNumber] in Hc.
    exists p, s. destruct (s =? 0)%float; [discriminate Hc|].
    injection Hc as <-. repeat split.
Qed.

Lemma market_cap_origin_witness :
  let m := {| price := Some 150%float;
              shares_outstanding := Some 10%float;
              market_cap := Some 7%float;
              beta := None;
              total_debt := None |} in
  market_cap m = Some 7%float.
Proof.
  intros m.
  apply (proj1 (market_cap_origin
                  (fun _ => no_sheets [("last_price", 150%float);
                                       ("shares_outstanding", 10%float);
                                       ("market_cap", 7%float)])
                  "AAPL" m eq_refl)).
  reflexivity.
Defined.

(** X7. The price is the snapshot's last price when that is not zero;
    otherwise the previous close when there is one, zero included; otherwise
    the latest close of the history, and nothing when the history is empty
    too. *)
Theorem price_fallbacks
    (yf_Ticker : string -> Ticker) (ticker_symbol : string)
    (m : TickerMetrics) :
  fetch_ticker_metrics yf_Ticker ticker_symbol = Ok m ->
  let ticker := yf_Ticker ticker_symbol in
  let snapshot := or_empty (fast_info ticker) in
  let fallback :=
    match get snapshot "previous_close" with
    | Some close => Some close
    | None => match history_close ticker with
              | [] => None
              | _ :: _ => Some (last (history_close ticker) nan)
              end
    end in
  price m = match get snapshot "last_price" with
            | Some p => if (p =? 0)%float then fallback else Some p
            | None => fallback
            end.
Proof.
  intros E ticker snapshot fallback.
  rewrite (proj1 (fetch_fields yf_Ticker ticker_symbol m E)).
  fold ticker snapshot. unfold py_or, truthy_opt, truthy, fallback.
  cbn [is_zero float_PyNumber].
  destruct (get snapshot "last_price") as [p|];
    [destruct (p =? 0)%float; cbn [negb]|];
    try reflexivity;
    destruct (get snapshot "previous_close"); reflexivity.
Qed.

Lemma price_fallbacks_witness :
  let m := {| price := Some 0%float;
              shares_outstanding := None;
              market_cap := None;
              beta := None;
              total_debt := None |} in
  price m = Some 0%float.
Proof.
  intros m.
  apply (price_fallbacks
           (fun _ => {| fast_info := Some [("previous_close", 0%float)];
                        history_close := [12%float];
                        get_info := None;
                        balance_sheet := None;
                        quarterly_balance_sheet := None |})
           "AAPL" m eq_refl).
Defined.

(** X8. The beta is the one of the company info when that is not zero, and
    otherwise whatever the snapshot holds, zero or nothing included. *)
Theorem beta_fallback
    (yf_Ticker : string -> Ticker) (ticker_symbol : string)
    (m : TickerMetrics) :
  fetch_ticker_metrics yf_Ticker ticker_symbol = Ok m ->
  let ticker := yf_Ticker ticker_symbol in
  beta m = match get (or_empty (get_info ticker)) "beta" with
           | Some b =>
               if (b =? 0)%float
               then get (or_empty (fast_info ticker)) "beta"
               else Some b
           | None => get (or_empty (fast_info ticker)) "beta"
           end.
Proof.
  intros E ticker.
  destruct (fetch_fields yf_Ticker ticker_symbol m E) as (_ & _ & Hb & _).
  rewrite Hb. fold ticker. unfold py_or, truthy_opt, truthy.
  cbn [is_zero float_PyNumber].
  destruct (get (or_empty (get_info ticker)) "beta") as [b|];
    [destruct (b =? 0)%float|]; reflexivity.
Qed.

Lemma beta_fallback_witness :
  let m := {| price := None;
              shares_outstanding := None;
              market_cap := None;
              beta := Some 1.3%float;
              total_debt := None |} in
  beta m = Some 1.3%float.
Proof.
  intros m.
  apply (beta_fallback
           (fun _ => {| fast_info := Some [("beta", 1.3%float)];
                        history_close := [];
                        get_info := Some [("beta", 0%float)];
                        balance_sheet := None;
                        quarterly_balance_sheet := None |})
           "AAPL" m eq_refl).
Defined.

(** X9. When the annual balance sheet has data but no row with a debt
    label, the fetcher returns no total debt: the quarterly sheet is not
    looked at, whatever it holds. *)
Theorem quarterly_sheet_is_only_a_fallback
    (yf_Ticker : string -> Ticker) (ticker_symbol : string)
    (annual : DataFrame) :
  balance_sheet (yf_Ticker ticker_symbol) = Some annual ->
  df_empty annual = false ->
  Forall unmatched (index annual) ->
  exists m,
    fetch_ticker_metrics yf_Ticker ticker_symbol = Ok m /\
    total_debt m = None.
Proof.
  intros Ha Hne Hno.
  assert (E : _extract_total_debt
                (_get_first_balance_sheet (yf_Ticker ticker_symbol))
              = Ok None).
  { unfold _get_first_balance_sheet. rewrite Ha, Hne. cbn [negb].
    unfold _extract_total_debt. rewrite Hne.
    apply extract_loop_no_match. exact Hno. }
  destruct (fetch_ticker_metrics_returns yf_Ticker ticker_symbol None E)
    as (m & Hm & Hd & _).
  exists m. split; assumption.
Qed.

Lemma quarterly_sheet_is_only_a_fallback_witness :
  exists m,
    fetch_ticker_metrics
      (fun _ => {| fast_info := None;
                   history_close := [];
                   get_info := None;
                   balance_sheet :=
                     Some {| index := ["Cash"; "Inventory"];
                             columns := ["2023-12-31"];
                             values := [[1%float]; [2%float]] |};
                   quarterly_balance_sheet := Some sheet_long_term_first |})
      "AAPL" = Ok m /\
    total_debt m = None.
Proof.
  apply (quarterly_sheet_is_only_a_fallback
           (fun _ => {| fast_info := None;
                        history_close := [];
                        get_info := None;
                        balance_sheet :=
                          Some {| index := ["Cash"; "Inventory"];
                                  columns := ["2023-12-31"];
                                  values := [[1%float]; [2%float]] |};
                        quarterly_balance_sheet :=
                          Some sheet_long_term_first |})
           "AAPL"
           {| index := ["Cash"; "Inventory"];
              columns := ["2023-12-31"];
              values := [[1%float]; [2%float]] |}).
  - reflexivity.
  - reflexivity.
  - repeat constructor.
Defined.

Lemma fetch_raises
    (yf_Ticker : string -> Ticker) (ticker_symbol : string) (e : exception) :
  fetch_ticker_metrics yf_Ticker ticker_symbol = Raise e ->
  e = TypeError /\
  _extract_total_debt (_get_first_balance_sheet (yf_Ticker ticker_symbol))
  = Raise e.
Proof.
  unfold fetch_ticker_metrics.
  destruct (_extract_total_debt _) as [debt|e'] eqn:Ed; cbn [bind];
    [discriminate|].
  intros E. injection E as <-.
  split; [|reflexivity].
  apply (extract_raises_type_error _ _ Ed).
Qed.

Lemma fetch_debt_not_nan
    (yf_Ticker : string -> Ticker) (ticker_symbol : string)
    (m : TickerMetrics) (v : float) :
  fetch_ticker_metrics yf_Ticker ticker_symbol = Ok m ->
  total_debt m = Some v -> is_nan v = false.
Proof.
  intros E Hv.
  destruct (fetch_fields yf_Ticker ticker_symbol m E) as (_ & _ & _ & Hd).
  rewrite Hv in Hd. apply (extract_not_nan _ _ Hd).
Qed.

(** X10. The fetcher fails only with the [TypeError] of a balance sheet
    with a repeated label; missing data never makes it fail: without
    snapshot, history, info and balance sheets it returns the record with
    five empty fields, and with sheets whose labels are unique it
    returns. *)
Theorem fetcher_failures
    (yf_Ticker : string -> Ticker) (ticker_symbol : string) :
  (forall e,
      fetch_ticker_metrics yf_Ticker ticker_symbol = Raise e ->
      e = TypeError) /\
  (yf_Ticker ticker_symbol
   = {| fast_info := None; history_close := []; get_info := None;
        balance_sheet := None; quarterly_balance_sheet := None |} ->
   fetch_ticker_metrics yf_Ticker ticker_symbol
   = Ok {| price := None; shares_outstanding := None; market_cap := None;
           beta := None; total_debt := None |}) /\
  (forall frame,
      _get_first_balance_sheet (yf_Ticker ticker_symbol) = Some frame ->
      NoDup (index frame) -> NoDup (columns frame) ->
      exists m, fetch_ticker_metrics yf_Ticker ticker_symbol = Ok m).
Proof.
  split; [|split].
  - intros e E. apply (fetch_raises yf_Ticker ticker_symbol e E).
  - intros Ht. unfold fetch_ticker_metrics. rewrite Ht. reflexivity.
  - intros frame Hf Hi Hc.
    destruct (extract_unique_returns frame Hi Hc) as [debt Hd].
    rewrite <- Hf in Hd.
    destruct (fetch_ticker_metrics_returns yf_Ticker ticker_symbol debt Hd)
      as (m & Hm & _).
    exists m. exact Hm.
Qed.

Lemma fetcher_failures_witness :
  fetch_ticker_metrics
    (fun _ => {| fast_info := None; history_close := []; get_info := None;
                 balance_sheet := None; quarterly_balance_sheet := None |})
    "AAPL"
  = Ok {| price := None; shares_outstanding := None; market_cap := None;
          beta := None; total_debt := None |}.
Proof.
  apply (proj1 (proj2 (fetcher_failures
                         (fun _ => {| fast_info := None;
                                      history_close := [];
                                      get_info := None;
                                      balance_sheet := None;
                                      quarterly_balance_sheet := None |})
                         "AAPL"))).
  reflexivity.
Defined.

(** ** What the handler does *)

Lemma or_default_not_zero (a : option float) (default : float) :
  (default =? 0)%float = false ->
  (or_default a default =? 0)%float = false.
Proof.
  intros Hd. unfold or_default, truthy. cbn [is_zero float_PyNumber].
  destruct a as [x|]; [|exact Hd].
  destruct (x =? 0)%float eqn:E; [exact Hd|exact E].
Qed.

Lemma or_default_not_nan (a : option float) (default : float) :
  (forall x, a = Some x -> is_nan x = false) ->
  is_nan default = false ->
  is_nan (or_default a default) = false.
Proof.
  intros Ha Hd. unfold or_default.
  destruct a as [x|]; [|exact Hd].
  destruct (truthy x); [apply Ha; reflexivity|exact Hd].
Qed.

(** The single place where the handler can fail is the fetch. *)
Lemma handler_raises
    (yf_Ticker : string -> Ticker) (form : Form) (e : exception) :
  handler yf_Ticker form = Raise e ->
  fetch_ticker_metrics yf_Ticker (ticker_symbol form) = Raise e.
Proof.
  unfold handler.
  destruct (negb (submitted form)); [discriminate|].
  destruct (String.eqb (ticker_symbol form) ""); [discriminate|].
  destruct (fetch_ticker_metrics yf_Ticker (ticker_symbol form))
    as [m|e']; cbn [bind]; [|intros E; injection E as <-; reflexivity].
  destruct (if truthy (manual_market_cap form) then _ else _) as [c|];
    [|discriminate].
  destruct (c <=? 0)%float; [discriminate|].
  rewrite calculate_wacc_returns. cbn [bind]. discriminate.
Qed.

(** X11. The handler fails only when the fetch fails, and then with the
    fetch's [TypeError]; the calculation itself never raises, whatever the
    form and the fetched data hold. *)
Theorem handler_failures
    (yf_Ticker : string -> Ticker) (form : Form) (e : exception) :
  handler yf_Ticker form = Raise e ->
  e = TypeError /\
  submitted form = true /\
  ticker_symbol form <> "" /\
  fetch_ticker_metrics yf_Ticker (ticker_symbol form) = Raise e.
Proof.
  intros E.
  pose proof (handler_raises yf_Ticker form e E) as Hf.
  split; [apply (fetch_raises yf_Ticker _ e Hf)|].
  unfold handler in E.
  destruct (submitted form); [|discriminate E].
  destruct (String.eqb_spec (ticker_symbol form) "") as [_|Hne];
    [discriminate E|].
  repeat split; assumption.
Qed.

(** X12. What reaches the calculator. On a submission that gets as far as
    computing, [calculate_wacc] is called with the market cap, the total
    debt and the beta of the page, on the metrics that the fetch returned:
    that market cap is not [<= 0] and is the override of the form when that
    is not zero and the fetched market cap otherwise; that beta is not zero;
    that total debt is not NaN. *)
Theorem calculator_inputs
    (yf_Ticker : string -> Ticker) (form : Form)
    (cap debt b : float) (r : WaccResult float) (m : TickerMetrics) :
  handler yf_Ticker form = Ok (Success cap debt b r m) ->
  fetch_ticker_metrics yf_Ticker (ticker_symbol form) = Ok m /\
  calculate_wacc cap debt
    (risk_free_rate_pct form / 100)%float
    (market_risk_premium_pct form / 100)%float
    (cost_of_debt_pct form / 100)%float
    (tax_rate_pct form / 100)%float b = Ok r /\
  (cap <=? 0)%float = false /\
  (if (manual_market_cap form =? 0)%float
   then market_cap m = Some cap
   else cap = manual_market_cap form) /\
  (b =? 0)%float = false /\
  is_nan debt = false.
Proof.
  intros E.
  destruct (handler_success yf_Ticker form cap debt b r m E)
    as (Hm & Hb & Hd & Hr).
  split; [exact Hm|]. split; [exact Hr|]. subst b debt.
  assert (Hcap : (cap <=? 0)%float = false /\
                 (if (manual_market_cap form =? 0)%float
                  then market_cap m = Some cap
                  else cap = manual_market_cap form)).
  { unfold handler in E.
    destruct (negb (submitted form)); [discriminate E|].
    destruct (String.eqb (ticker_symbol form) ""); [discriminate E|].
    rewrite Hm in E. cbn [bind] in E.
    unfold truthy in E. cbn [is_zero float_PyNumber] in E.
    destruct (manual_market_cap form =? 0)%float; cbn [negb] in E.
    - destruct (market_cap m) as [c|]; [|discriminate E].
      destruct (c <=? 0)%float eqn:Hle; [discriminate E|].
      rewrite calculate_wacc_returns in E. cbn [bind] in E.
      injection E as <- _. split; [exact Hle|reflexivity].
    - destruct (manual_market_cap form <=? 0)%float eqn:Hle;
        [discriminate E|].
      rewrite calculate_wacc_returns in E. cbn [bind] in E.
      injection E as <- _. split; [exact Hle|reflexivity]. }
  destruct Hcap as [H1 H2].
  split; [exact H1|]. split; [exact H2|]. split.
  - apply or_default_not_zero. reflexivity.
  - apply or_default_not_nan; [|reflexivity].
    intros x Hx. apply (fetch_debt_not_nan yf_Ticker _ m x Hm Hx).
Qed.

Lemma calculator_inputs_witness :
  exists cap debt b r m,
    handler (fun _ => no_sheets [("market_cap", 1000%float)])
            (sample_form 2500%float)
    = Ok (Success cap debt b r m) /\
    cap = 2500%float /\ (b =? 0)%float = false /\ is_nan debt = false.
Proof.
  do 5 eexists.
  assert (E : handler (fun _ => no_sheets [("market_cap", 1000%float)])
                      (sample_form 2500%float)
              = Ok (Success _ _ _ _ _)) by reflexivity.
  split; [exact E|].
  destruct (calculator_inputs _ _ _ _ _ _ _ E) as (_ & _ & _ & Hc & Hb & Hd).
  split; [exact Hc|]. split; [exact Hb|exact Hd].
Defined.

(** ** The calculator on exact numbers *)

Lemma Q_py_max_cases (d : Q) :
  (d < 0 /\ py_max d 0 = 0)%Q \/ (0 <= d /\ py_max d 0 = d)%Q.
Proof.
  unfold py_max. cbn [ltb Q_PyNumber].
  destruct (Qle_bool 0 d) eqn:E; cbn [negb].
  - right. split; [apply Qle_bool_iff; exact E|reflexivity].
  - left. split; [|reflexivity].
    apply Qnot_le_lt. intros H. apply Qle_bool_iff in H. congruence.
Qed.

Lemma Q_py_max_nonneg (d : Q) : (0 <= py_max d 0)%Q.
Proof.
  destruct (Q_py_max_cases d) as [[_ ->]|[H ->]]; [apply Qle_refl|exact H].
Qed.

Lemma Q_weight_bounds (e d : Q) :
  (0 <= e -> 0 <= d -> 0 < e + d ->
   0 <= e / (e + d) /\ e / (e + d) <= 1)%Q.
Proof.
  intros He Hd Ht. split.
  - apply Qle_shift_div_l; [exact Ht|]. lra.
  - apply Qle_shift_div_r; [exact Ht|]. lra.
Qed.

(** On exact numbers, what [calculate_wacc] returns for a total capital that
    is not zero. *)
Lemma Q_calculate_wacc (market_cap total_debt rf mrp cod tax b : Q) :
  let debt_value := py_max total_debt 0%Q in
  let total := (market_cap + debt_value)%Q in
  ~ (total == 0)%Q ->
  calculate_wacc market_cap total_debt rf mrp cod tax b
  = Ok {| equity_weight := (market_cap / total)%Q;
          debt_weight := (debt_value / total)%Q;
          cost_of_equity := (rf + b * mrp)%Q;
          after_tax_cost_of_debt := (cod * (1 - tax))%Q;
          wacc := (market_cap / total * (rf + b * mrp)
                   + debt_value / total * (cod * (1 - tax)))%Q |}.
Proof.
  intros debt_value total Hne. rewrite calculate_wacc_returns.
  cbn [is_zero add sub mul div zero one Q_PyNumber].
  fold debt_value total. rewrite (Q_is_zero_false _ Hne). reflexivity.
Qed.

(** X13. On exact numbers, with a market cap that is not negative and a
    positive total capital, both weights lie between 0 and 1 and the WACC
    lies between the cost of equity and the after-tax cost of debt. *)
Theorem wacc_between_costs (market_cap total_debt rf mrp cod tax b : Q) :
  (0 <= market_cap)%Q -> (0 < market_cap + py_max total_debt 0)%Q ->
  exists r,
    calculate_wacc market_cap total_debt rf mrp cod tax b = Ok r /\
    (0 <= equity_weight r /\ equity_weight r <= 1)%Q /\
    (0 <= debt_weight r /\ debt_weight r <= 1)%Q /\
    ((cost_of_equity r <= after_tax_cost_of_debt r ->
      cost_of_equity r <= wacc r /\ wacc r <= after_tax_cost_of_debt r) /\
     (after_tax_cost_of_debt r <= cost_of_equity r ->
      after_tax_cost_of_debt r <= wacc r /\ wacc r <= cost_of_equity r))%Q.
Proof.
  intros He Ht.
  pose proof (Q_py_max_nonneg total_debt) as Hd.
  assert (Hne : ~ (market_cap + py_max total_debt 0 == 0)%Q) by lra.
  eexists. split; [apply (Q_calculate_wacc _ _ _ _ _ _ _ Hne)|].
  cbn [equity_weight debt_weight cost_of_equity after_tax_cost_of_debt wacc].
  set (d := py_max total_debt 0%Q) in *.
  destruct (Q_weight_bounds market_cap d He Hd Ht) as [E1 E2].
  assert (Ht' : (0 < d + market_cap)%Q) by lra.
  destruct (Q_weight_bounds d market_cap Hd He Ht') as [D1 D2].
  assert (Hsum : (market_cap / (market_cap + d) + d / (market_cap + d) == 1)%Q)
    by (apply Q_weights_sum; exact Hne).
  assert (Hd' : (d / (d + market_cap) == d / (market_cap + d))%Q)
    by (field; lra).
  rewrite Hd' in D1, D2.
  set (ew := (market_cap / (market_cap + d))%Q) in *.
  set (dw := (d / (market_cap + d))%Q) in *.
  set (coe := (rf + b * mrp)%Q). set (atc := (cod * (1 - tax))%Q).
  repeat split; try assumption; nra.
Qed.

(** X14. On exact numbers, a company without debt (total debt zero or
    negative) and with a market cap that is not zero has equity weight 1,
    debt weight 0, and a WACC equal to its cost of equity. *)
Theorem no_debt_wacc_is_cost_of_equity
    (market_cap total_debt rf mrp cod tax b : Q) :
  (total_debt <= 0)%Q -> ~ (market_cap == 0)%Q ->
  exists r,
    calculate_wacc market_cap total_debt rf mrp cod tax b = Ok r /\
    (equity_weight r == 1)%Q /\ (debt_weight r == 0)%Q /\
    (wacc r == cost_of_equity r)%Q.
Proof.
  intros Hd He.
  assert (Hz : (py_max total_debt 0 == 0)%Q).
  { destruct (Q_py_max_cases total_debt) as [[_ ->]|[H ->]];
      [reflexivity|lra]. }
  assert (Hne : ~ (market_cap + py_max total_debt 0 == 0)%Q).
  { rewrite Hz. intros E. apply He. lra. }
  eexists. split; [apply (Q_calculate_wacc _ _ _ _ _ _ _ Hne)|].
  cbn [equity_weight debt_weight cost_of_equity wacc].
  set (d := py_max total_debt 0%Q) in *.
  assert (E1 : (market_cap / (market_cap + d) == 1)%Q).
  { rewrite Hz. field. exact He. }
  assert (E2 : (d / (market_cap + d) == 0)%Q).
  { rewrite Hz. field. intros E. apply He. lra. }
  split; [exact E1|]. split; [exact E2|].
  rewrite E1, E2. ring.
Qed.

Lemma Q_py_max_scale (k d : Q) :
  (0 < k -> py_max (k * d) 0 == k * py_max d 0)%Q.
Proof.
  intros Hk.
  destruct (Q_py_max_cases d) as [[Hd ->]|[Hd ->]];
    destruct (Q_py_max_cases (k * d)%Q) as [[Hkd ->]|[Hkd ->]];
    try nra; try reflexivity.
Qed.

(** X15. On exact numbers the weights and the WACC depend on the
    proportions only: multiplying market cap and total debt by the same
    positive factor changes none of them. *)
Theorem wacc_scale_invariant
    (k market_cap total_debt rf mrp cod tax b : Q) :
  (0 < k)%Q ->
  exists r r',
    calculate_wacc market_cap total_debt rf mrp cod tax b = Ok r /\
    calculate_wacc (k * market_cap)%Q (k * total_debt)%Q rf mrp cod tax b
    = Ok r' /\
    (equity_weight r' == equity_weight r)%Q /\
    (debt_weight r' == debt_weight r)%Q /\
    (wacc r' == wacc r)%Q.
Proof.
  intros Hk.
  pose proof (Q_py_max_scale k total_debt Hk) as Hs.
  do 2 eexists.
  split; [apply calculate_wacc_returns|].
  split; [apply calculate_wacc_returns|].
  cbn [equity_weight debt_weight wacc is_zero add sub mul div zero one
       Q_PyNumber].
  set (d := py_max total_debt 0%Q) in *.
  set (d' := py_max (k * total_debt)%Q 0%Q) in *.
  destruct (Qeq_bool (market_cap + d) 0) eqn:E.
  - apply Qeq_bool_iff in E.
    assert (E' : (k * market_cap + d' == 0)%Q) by (rewrite Hs; nra).
    apply Qeq_bool_iff in E'. rewrite E'. repeat split; reflexivity.
  - assert (Hne : ~ (market_cap + d == 0)%Q).
    { intros H. apply Qeq_bool_iff in H. congruence. }
    assert (Hne' : ~ (k * market_cap + d' == 0)%Q).
    { rewrite Hs. intros H. apply Hne. nra. }
    rewrite (Q_is_zero_false _ Hne').
    assert (E1 : (k * market_cap / (k * market_cap + d')
                  == market_cap / (market_cap + d))%Q).
    { rewrite Hs. field. split; [exact Hne|].
      intros H. apply Hne. nra. }
    assert (E2 : (d' / (k * market_cap + d') == d / (market_cap + d))%Q).
    { rewrite Hs. field. split; [exact Hne|].
      intros H. apply Hne. nra. }
    split; [exact E1|]. split; [exact E2|].
    rewrite E1, E2. reflexivity.
Qed.

Lemma wacc_between_costs_witness :
  exists r,
    calculate_wacc 800000%Q 200000%Q 0.03%Q 0.06%Q 0.05%Q 0.21%Q 1.2%Q
    = Ok r /\
    (0 <= equity_weight r /\ equity_weight r <= 1)%Q /\
    (0 <= debt_weight r /\ debt_weight r <= 1)%Q /\
    ((cost_of_equity r <= after_tax_cost_of_debt r ->
      cost_of_equity r <= wacc r /\ wacc r <= after_tax_cost_of_debt r) /\
     (after_tax_cost_of_debt r <= cost_of_equity r ->
      after_tax_cost_of_debt r <= wacc r /\ wacc r <= cost_of_equity r))%Q.
Proof.
  apply wacc_between_costs.
  - discriminate.
  - reflexivity.
Defined.

Lemma no_debt_wacc_is_cost_of_equity_witness :
  exists r,
    calculate_wacc 1000000%Q (-5)%Q 0.04%Q 0.05%Q 0.04%Q 0.25%Q 1%Q = Ok r /\
    (equity_weight r == 1)%Q /\ (debt_weight r == 0)%Q /\
    (wacc r == cost_of_equity r)%Q.
Proof.
  apply no_debt_wacc_is_cost_of_equity.
  - discriminate.
  - discriminate.
Defined.

Lemma wacc_scale_invariant_witness :
  exists r r',
    calculate_wacc 800%Q 200%Q 0.03%Q 0.06%Q 0.05%Q 0.21%Q 1.2%Q = Ok r /\
    calculate_wacc (1000 * 800)%Q (1000 * 200)%Q 0.03%Q 0.06%Q 0.05%Q 0.21%Q
                   1.2%Q = Ok r' /\
    (equity_weight r' == equity_weight r)%Q /\
    (debt_weight r' == debt_weight r)%Q /\
    (wacc r' == wacc r)%Q.
Proof.
  apply wacc_scale_invariant. reflexivity.
Defined.

(** ** The pages of the handler *)

Lemma handler_failures_witness :
  TypeError = TypeError /\
  submitted (sample_form 0%float) = true /\
  ticker_symbol (sample_form 0%float) <> "" /\
  fetch_ticker_metrics repeated_label_source
    (ticker_symbol (sample_form 0%float)) = Raise TypeError.
Proof.
  apply (handler_failures repeated_label_source (sample_form 0%float)
           TypeError).
  reflexivity.
Defined.

(** The market cap the handler works with: the override of the form unless
    it is zero, the fetched one otherwise. *)
Lemma handler_after_fetch
    (yf_Ticker : string -> Ticker) (form : Form) (m : TickerMetrics) :
  submitted form = true -> ticker_symbol form <> "" ->
  fetch_ticker_metrics yf_Ticker (ticker_symbol form) = Ok m ->
  handler yf_Ticker form
  = match (if (manual_market_cap form =? 0)%float then market_cap m
           else Some (manual_market_cap form)) with
    | None => Ok ErrorNoMarketCap
    | Some cap =>
        if (cap <=? 0)%float then Ok ErrorNoMarketCap
        else
          wacc_inputs <-
            calculate_wacc cap (or_default (total_debt m) 0%float)
              (risk_free_rate_pct form / 100)%float
              (market_risk_premium_pct form / 100)%float
              (cost_of_debt_pct form / 100)%float
              (tax_rate_pct form / 100)%float
              (or_default (beta m) 1%float) ;;
          Ok (Success cap (or_default (total_debt m) 0%float)
                      (or_default (beta m) 1%float) wacc_inputs m)
    end.
Proof.
  intros Hs Ht Hm. unfold handler. rewrite Hs. cbn [negb].
  destruct (String.eqb_spec (ticker_symbol form) "") as [E|_];
    [contradiction|].
  rewrite Hm. cbn [bind]. unfold truthy. cbn [is_zero float_PyNumber].
  destruct (manual_market_cap form =? 0)%float; reflexivity.
Qed.

(** X16. Which page is shown. Without a submission nothing is computed;
    with an empty ticker the ticker error is shown; in both cases the data
    source plays no part. The market-cap error is shown exactly when the
    fetch returned and the market cap in use (the override unless it is
    zero, else the fetched one) is missing or [<= 0]. *)
Theorem page_shown (yf_Ticker : string -> Ticker) (form : Form) :
  (handler yf_Ticker form = Ok NotSubmitted <-> submitted form = false) /\
  (handler yf_Ticker form = Ok ErrorNoTicker <->
   submitted form = true /\ ticker_symbol form = "") /\
  (handler yf_Ticker form = Ok ErrorNoMarketCap <->
   submitted form = true /\ ticker_symbol form <> "" /\
   exists m,
     fetch_ticker_metrics yf_Ticker (ticker_symbol form) = Ok m /\
     match (if (manual_market_cap form =? 0)%float then market_cap m
            else Some (manual_market_cap form)) with
     | None => True
     | Some cap => (cap <=? 0)%float = true
     end).
Proof.
  destruct (submitted form) eqn:Hs.
  2:{ unfold handler. rewrite Hs. cbn [negb].
      split; [split; reflexivity|].
      split; (split; [discriminate|intros [E _]; discriminate E]). }
  destruct (String.eqb_spec (ticker_symbol form) "") as [Ht|Ht].
  { unfold handler. rewrite Hs, Ht. cbn [negb String.eqb].
    split; [split; discriminate|].
    split; [split; [intros _; split; reflexivity|reflexivity]|].
    split; [discriminate|intros (_ & H & _); contradiction]. }
  destruct (fetch_ticker_metrics yf_Ticker (ticker_symbol form))
    as [m|e] eqn:Hm.
  2:{ assert (E : handler yf_Ticker form = Raise e).
      { unfold handler. rewrite Hs. cbn [negb].
        destruct (String.eqb_spec (ticker_symbol form) "");
          [contradiction|].
        rewrite Hm. reflexivity. }
      rewrite E.
      split; [split; discriminate|].
      split; [split; [discriminate|intros [_ H]; contradiction]|].
      split; [discriminate|intros (_ & _ & m & H & _); discriminate H]. }
  rewrite (handler_after_fetch yf_Ticker form m Hs Ht Hm).
  destruct (if (manual_market_cap form =? 0)%float then market_cap m
            else Some (manual_market_cap form)) as [cap|] eqn:Hcap.
  - destruct (cap <=? 0)%float eqn:Hle.
    + split; [split; discriminate|].
      split; [split; [discriminate|intros [_ H]; contradiction]|].
      split; [|reflexivity].
      intros _. split; [reflexivity|]. split; [exact Ht|].
      exists m. split; [reflexivity|]. rewrite Hcap. exact Hle.
    + rewrite calculate_wacc_returns. cbn [bind].
      split; [split; discriminate|].
      split; [split; [discriminate|intros [_ H]; contradiction]|].
      split; [discriminate|].
      intros (_ & _ & m' & Hm' & H). injection Hm' as <-.
      rewrite Hcap, Hle in H. discriminate H.
  - split; [split; discriminate|].
    split; [split; [discriminate|intros [_ H]; contradiction]|].
    split; [|reflexivity].
    intros _. split; [reflexivity|]. split; [exact Ht|].
    exists m. split; [reflexivity|]. rewrite Hcap. exact I.
Qed.

Lemma page_shown_witness :
  handler (fun _ => no_sheets []) (sample_form 0%float)
  = Ok ErrorNoMarketCap.
Proof.
  apply (proj2 (proj2 (page_shown (fun _ => no_sheets [])
                         (sample_form 0%float)))).
  split; [reflexivity|]. split; [discriminate|].
  eexists. split; [reflexivity|]. exact I.
Defined.

(** A float that is neither NaN nor [<= 0] is greater than zero. *)
Lemma float_positive (x : float) :
  is_nan x = false -> (x <=? 0)%float = false -> (0 <? x)%float = true.
Proof.
  unfold is_nan.
  rewrite FloatAxioms.eqb_spec, FloatAxioms.leb_spec, FloatAxioms.ltb_spec.
  replace (Prim2SF 0%float) with (S754_zero false) by reflexivity.
  destruct (Prim2SF x) as [s|s| |s mant e].
  - destruct s; discriminate.
  - destruct s; [discriminate|reflexivity].
  - discriminate.
  - destruct s; [discriminate|reflexivity].
Qed.

(** X17. On a submission that gets as far as computing, [calculate_wacc] is
    called with a market cap that is greater than zero, unless it is NaN. *)
Theorem market_cap_positive
    (yf_Ticker : string -> Ticker) (form : Form)
    (cap debt b : float) (r : WaccResult float) (m : TickerMetrics) :
  handler yf_Ticker form = Ok (Success cap debt b r m) ->
  is_nan cap = false ->
  calculate_wacc cap debt
    (risk_free_rate_pct form / 100)%float
    (market_risk_premium_pct form / 100)%float
    (cost_of_debt_pct form / 100)%float
    (tax_rate_pct form / 100)%float b = Ok r /\
  (0 <? cap)%float = true.
Proof.
  intros E Hnan.
  split; [apply (handler_success yf_Ticker form cap debt b r m E)|].
  apply float_positive; [exact Hnan|].
  unfold handler in E.
  destruct (negb (submitted form)); [discriminate E|].
  destruct (String.eqb (ticker_symbol form) ""); [discriminate E|].
  destruct (fetch_ticker_metrics yf_Ticker (ticker_symbol form))
    as [m'|e]; [|discriminate E].
  cbn [bind] in E.
  destruct (if truthy (manual_market_cap form) then _ else _) as [c|];
    [|discriminate E].
  destruct (c <=? 0)%float eqn:Hle; [discriminate E|].
  rewrite calculate_wacc_returns in E. cbn [bind] in E.
  injection E as <- _. exact Hle.
Qed.

Lemma market_cap_positive_witness : (0 <? 2500)%float = true.
Proof.
  apply (market_cap_positive
           (fun _ => no_sheets [("market_cap", 1000%float)])
           (sample_form 2500%float) 2500%float
           0%float 1%float
           {| equity_weight := 1%float;
              debt_weight := 0%float;
              cost_of_equity := 0.09%float;
              after_tax_cost_of_debt := 0.03%float;
              wacc := 0.09%float |}
           {| price := None; shares_outstanding := None;
              market_cap := Some 1000%float; beta := None;
              total_debt := None |}).
  - vm_compute. reflexivity.
  - reflexivity.
Defined.
